(** * Ext.ux.data.DwrProxy: request/response translation layer

    A shallow embedding of [src/data/DwrProxy.js]: the [ActionHandler]
    constructor with its default argument builders, the [DwrProxy]
    constructor, [doRequest], [createCallback], [onRead], [onWrite] and
    [handleResponseException], followed by the properties stated about them.

    JavaScript values are a small inductive type; objects used as maps are
    [gmap string _].  Code that can throw returns an [outcome]; code that
    also talks to the outside (fires an event, invokes the request's
    callback, applies the DWR function) runs in the monad [M], which pairs
    the outcome with the trace of those effects in program order. *)

From stdpp Require Import gmap strings list fin_maps pretty.

#[local] Set Warnings "-register-all".
#[local] Open Scope string_scope.
#[local] Open Scope list_scope.

(** ** JavaScript values *)

(** Function objects.  [HostFn] is a function written by the page (a DWR
    stub, a custom [getDwrArgsFunction], a store callback); what it does
    when called is supplied by the [Host].  The other three are the
    functions this file can name itself. *)
Inductive fn : Type :=
| HostFn (name : string)
| defaultGetDwrArgsFunctions_read
| defaultGetDwrArgsFunctions_write
| ObjectConstructor.

Inductive value : Type :=
| VUndef
| VNull
| VBool (b : bool)
| VNum (n : Z)
| VStr (s : string)
| VArr (elems : list value)
| VObj (props : gmap string value)
| VFun (f : fn)
| VNew (ctor : string) (args : list value).   (* the result of [new ctor(args)] *)

(** [!!v] : every value is truthy except undefined, null, false, 0 and ''. *)
Definition truthy (v : value) : bool :=
  match v with
  | VUndef | VNull | VBool false | VNum 0 | VStr EmptyString => false
  | _ => true
  end.

(** [v === false] *)
Definition is_false (v : value) : bool :=
  match v with VBool false => true | _ => false end.

(** [v === s] for a string literal [s] *)
Definition is_string (v : value) (s : string) : bool :=
  match v with VStr a => bool_decide (a = s) | _ => false end.

(** ** Outcomes: normal completion or a thrown value *)

Inductive outcome (A : Type) : Type :=
| Return (a : A)
| Throw (e : value).
Arguments Return {A} a.
Arguments Throw {A} e.

Definition obind {A B} (m : outcome A) (k : A → outcome B) : outcome B :=
  match m with
  | Return a => k a
  | Throw e => Throw e
  end.

Definition ReferenceError (identifier : string) : value :=
  VNew "ReferenceError" [VStr (identifier +:+ " is not defined")].

Definition TypeError (description : string) : value :=
  VNew "TypeError" [VStr description].

(** [v[k]]: own properties of object literals; reading a property of
    undefined or null throws.  Properties that other kinds of value inherit
    (Array.prototype, String.prototype, ...) are not modelled and read as
    undefined. *)
Definition own (v : value) (k : string) : value :=
  match v with
  | VObj o => default VUndef (o !! k)
  | _ => VUndef
  end.

Definition get (v : value) (k : string) : outcome value :=
  match v with
  | VUndef | VNull => Throw (TypeError ("Cannot read property '" +:+ k +:+ "'"))
  | _ => Return (own v k)
  end.

(** ** The framework's action table *)

Module Api.

(** Modelled from the spec: [Ext.data.Api.actions] is part of the host
    framework and not in this repository.  The fixed action-name
    enumeration, keys equal to values, in the order the source comment
    at the [config.api] assignment lists them. *)
Definition actions : list (string * string) :=
  [("create", "create"); ("read", "read"); ("update", "update"); ("destroy", "destroy")].

Definition names : list string := actions.*1.

(** Modelled from the spec: [Ext.data.Api.isAction], the framework's
    validity check over the action enumeration: true exactly for the
    four action names. *)
Definition isAction (v : value) : bool :=
  match v with
  | VStr a => bool_decide (a ∈ names)
  | _ => false
  end.

End Api.

(** ** Per-action handlers and requests *)

Module ActionHandler.
(** An [Ext.ux.data.DwrProxy.ActionHandler] instance once its constructor
    has returned: the four properties [doRequest] reads.  Whatever else
    [Ext.apply(this, config)] copied from the config is not kept. *)
Record t : Type := Build {
  action : value;
  dwrFunction : value;
  getDwrArgsFunction : value;
  getDwrArgsScope : value
}.
End ActionHandler.

Module Reader.
(** The part of an [Ext.data.DataReader] the proxy uses.  [successProperty]
    and [root] are the property names [reader.meta] hands out, already
    converted to property keys. *)
Record meta_t : Type := Meta {
  successProperty : string;
  root : string
}.
Record t : Type := Build {
  readRecords : value → outcome value;
  readResponse : string → value → outcome value;
  meta : meta_t
}.
End Reader.

Module Request.
(** [Ext.ux.data.DataProxy.Request]: the seven arguments of [doRequest]. *)
Record t : Type := Build {
  action : string;
  records : value;
  params : value;
  reader : Reader.t;
  callback : value;
  scope : value;
  options : value
}.
End Request.

(** ** Effects *)

(** One argument of the DWR call: a plain value, or the object built by
    [createCallback] for a request (its two slots are [callback] and
    [exceptionHandler] of [DwrCallback.t] below). *)
Inductive dwrArg : Type :=
| Plain (v : value)
| Completion (request : Request.t).

(** What the proxy does to its collaborators.  The proxy itself ([this]),
    the second argument of every [fireEvent], is left out: there is one
    proxy per trace. *)
Inductive event : Type :=
| fireEvent_exception (kind : string) (action : string) (options response arg : value)
| fireEvent_load (request : Request.t) (options : value)
| fireEvent_write (action : string) (readRecords readDataBlock records options : value)
| callback_call (callback scope : value) (a1 a2 a3 : value)
| dwrFunction_apply (dwrFunction : value) (dwrArgs : list dwrArg).

Definition M (A : Type) : Type := list event * outcome A.

Definition raise {A} (e : value) : M A := ([], Throw e).
Definition emit (ev : event) : M unit := ([ev], Return tt).
Definition lift {A} (o : outcome A) : M A := ([], o).

Definition bind {A B} (m : M A) (k : A → M B) : M B :=
  match m with
  | (t, Return a) => let '(t', r) := k a in (t ++ t', r)
  | (t, Throw e) => (t, Throw e)
  end.

(** [try { m } catch (e) { return h e }] *)
Definition try_catch {A} (m : outcome A) (h : value → M unit) (k : A → M unit) : M unit :=
  match m with
  | Return a => k a
  | Throw e => h e
  end.

Declare Scope js_scope.
Delimit Scope js_scope with js.
Notation "x <- m ;; k" := (bind m (fun x => k))
  (at level 100, m at next level, right associativity) : js_scope.
Notation "x <-? m ;; k" := (obind m (fun x => k))
  (at level 100, m at next level, right associativity) : js_scope.
#[local] Open Scope js_scope.

Definition trace {A} (m : M A) : list event := m.1.
Definition result {A} (m : M A) : outcome A := m.2.

Definition is_callback_call (ev : event) : bool :=
  match ev with callback_call _ _ _ _ _ => true | _ => false end.

(** How many times the request's callback was invoked along a trace. *)
Definition callback_invocations (t : list event) : nat :=
  length (filter (fun ev => is_callback_call ev = true) t).

(** ** The host page *)

Module Host.
(** Everything the page and the framework contribute at run time.
    - [globals] is the global object: a free identifier resolves there,
      and evaluating one that is not bound throws a ReferenceError.
    - [objectToString] is the text an object, function or instance
      converts to under [+] with a string.
    - [call name this request recordDataArray] is what the page function
      [name] returns (or throws) when used as a [getDwrArgsFunction].
    - [DataProxy_constructor config api] is the superclass constructor
      [Ext.data.DataProxy], called with the config whose [api] property is
      the handler map just built. *)
Record t : Type := Build {
  globals : gmap string value;
  objectToString : value → string;
  call : string → value → Request.t → value → outcome value;
  DataProxy_constructor : value → gmap string ActionHandler.t → outcome unit
}.
End Host.

(** A free identifier in an expression. *)
Definition identifier (h : Host.t) (name : string) : outcome value :=
  match Host.globals h !! name with
  | Some v => Return v
  | None => Throw (ReferenceError name)
  end.

(** The string a value contributes to a concatenation. *)
Definition ToString (h : Host.t) (v : value) : string :=
  match v with
  | VUndef => "undefined"
  | VNull => "null"
  | VBool true => "true"
  | VBool false => "false"
  | VNum n => pretty n
  | VStr s => s
  | _ => Host.objectToString h v
  end.

(** The double-quote character, as it appears inside a message. *)
Definition dquote : string := String (Ascii.ascii_of_nat 34) EmptyString.

(** [throw new Exception(message)].  [Exception] is a free identifier:
    nothing in the source declares it. *)
Definition throw_new_Exception {A} (h : Host.t) (message : string) : outcome A :=
  match Host.globals h !! "Exception" with
  | None => Throw (ReferenceError "Exception")
  | Some (VFun _) => Throw (VNew "Exception" [VStr message])
  | Some _ => Throw (TypeError "Exception is not a constructor")
  end.

(** ** ActionHandler *)

(** [ActionHandler.prototype.defaultGetDwrArgsFunctions] *)
Definition defaultGetDwrArgsFunctions : value :=
  VObj {[ "read" := VFun defaultGetDwrArgsFunctions_read;
          "write" := VFun defaultGetDwrArgsFunctions_write ]}.

(** [this.defaultGetDwrArgsFunctions] after [Ext.apply(this, config)]: an
    own property copied from the config shadows the prototype's. *)
Definition this_defaultGetDwrArgsFunctions (config : value) : value :=
  match config with
  | VObj o => default defaultGetDwrArgsFunctions (o !! "defaultGetDwrArgsFunctions")
  | _ => defaultGetDwrArgsFunctions
  end.

(** [new Ext.ux.data.DwrProxy.ActionHandler(config)] *)
Definition ActionHandler_new (h : Host.t) (config : value) : outcome ActionHandler.t :=
  let action := own config "action" in
  let dwrFunction := own config "dwrFunction" in
  let getDwrArgsFunction := own config "getDwrArgsFunction" in
  let getDwrArgsScope := own config "getDwrArgsScope" in
  if negb (truthy action) then
    throw_new_Exception h (dquote +:+ "action" +:+ dquote +:+ " is not defined.")
  else if negb (Api.isAction action) then
    throw_new_Exception h (ToString h action +:+ " is not a valid Ext.data.Api action.")
  else if negb (truthy dwrFunction) then
    throw_new_Exception h (dquote +:+ "dwrFunction" +:+ dquote +:+ " is not defined.")
  else
    getDwrArgsFunction <-?
      (if negb (truthy getDwrArgsFunction) then
         if is_string action "read"
         then get (this_defaultGetDwrArgsFunctions config) "read"
         else get (this_defaultGetDwrArgsFunctions config) "write"
       else Return getDwrArgsFunction) ;;
    Return (ActionHandler.Build action dwrFunction getDwrArgsFunction
              (if negb (truthy getDwrArgsScope) then VFun ObjectConstructor
               else getDwrArgsScope)).

(** ** DwrProxy *)

Module DwrProxy.
Record t : Type := Build {
  apiActionToHandlerMap : gmap string ActionHandler.t
}.
End DwrProxy.

(** [o[k] = x] in sloppy mode: stored on an object literal, dropped on a
    primitive.  (Arrays and instances keep no named properties here, as in
    [own].) *)
Definition set_property (o : value) (k : string) (x : value) : value :=
  match o with
  | VObj props => VObj (<[k := x]> props)
  | _ => o
  end.

(** The body of the function handed to [Ext.iterate] in the constructor,
    for one action name; [handlers] is [this.apiActionToHandlerMap]. *)
Definition construct_handler (h : Host.t) (config : value)
    (handlers : gmap string ActionHandler.t) (action : string)
    : outcome (gmap string ActionHandler.t) :=
  let actionHandlerConfig := own (own config "apiActionToHandlerMap") action in
  if truthy actionHandlerConfig then
    handler <-? ActionHandler_new h (set_property actionHandlerConfig "action" (VStr action)) ;;
    Return (<[action := handler]> handlers)
  else Return handlers.

(** [Ext.iterate(Ext.data.Api.actions, fn, this)]: [fn] once per key of
    the action table, in order; a throw ends the loop. *)
Fixpoint iterate_actions (h : Host.t) (config : value) (actions : list string)
    (handlers : gmap string ActionHandler.t) : outcome (gmap string ActionHandler.t) :=
  match actions with
  | [] => Return handlers
  | action :: rest =>
      handlers' <-? construct_handler h config handlers action ;;
      iterate_actions h config rest handlers'
  end.

Definition apiActionToHandlerMap_missing : string :=
  dquote +:+ "apiActionToHandlerMap" +:+ dquote +:+ " is not defined within config.".

(** The constructor up to the superclass call: the guard and the loop. *)
Definition construct_handlers (h : Host.t) (config : value)
    : outcome (gmap string ActionHandler.t) :=
  if negb (truthy config) || negb (truthy (own config "apiActionToHandlerMap")) then
    throw_new_Exception h apiActionToHandlerMap_missing
  else
    iterate_actions h config Api.names ∅.

(** [new Ext.ux.data.DwrProxy(config)].  The writes the constructor makes
    into the caller's objects ([actionHandlerConfig.action], [config.api])
    reach this model only as the arguments of what is called next. *)
Definition DwrProxy_new (h : Host.t) (config : value) : outcome DwrProxy.t :=
  handlers <-? construct_handlers h config ;;
  _ <-? Host.DataProxy_constructor h config handlers ;;
  Return (DwrProxy.Build handlers).

(** ** Requests *)

Fixpoint omap_list {A B} (f : A → outcome B) (l : list A) : outcome (list B) :=
  match l with
  | [] => Return []
  | a :: rest =>
      b <-? f a ;;
      bs <-? omap_list f rest ;;
      Return (b :: bs)
  end.

(** Modelled from the spec: [Ext.pluck(arr, prop)] is part of the host
    framework.  One payload per record, in order; empty if the records are
    absent; a lone record counts as a list of one. *)
Definition Ext_pluck (arr : value) (prop : string) : outcome (list value) :=
  match arr with
  | VUndef | VNull => Return []
  | VArr elems => omap_list (fun v => get v prop) elems
  | v => omap_list (fun v => get v prop) [v]
  end.

Definition getRecordDataArray (records : value) : outcome (list value) :=
  Ext_pluck records "data".

(** [f.call(scope, request, recordDataArray)] for the value [f] stored as
    a handler's [getDwrArgsFunction]. *)
Definition call_getDwrArgsFunction (h : Host.t) (f scope : value)
    (request : Request.t) (recordDataArray : value) : outcome value :=
  match f with
  | VFun defaultGetDwrArgsFunctions_read => Return (VArr [])
  | VFun defaultGetDwrArgsFunctions_write => Return (VArr [recordDataArray])
  | VFun (HostFn name) => Host.call h name scope request recordDataArray
  | VFun ObjectConstructor =>
      (* Object(request) is the request itself, which has no push method *)
      Throw (TypeError "dwrArgs.push is not a function")
  | _ => Throw (TypeError "getDwrArgsFunction.call is not a function")
  end.

(** [... || []] followed by [dwrArgs.push(...)]: a falsy result becomes the
    empty list, anything truthy has to be an array. *)
Definition as_dwrArgs (r : value) : outcome (list value) :=
  if truthy r then
    match r with
    | VArr elems => Return elems
    | _ => Throw (TypeError "dwrArgs.push is not a function")
    end
  else Return [].

(** [dwrFunction.apply(Object, dwrArgs)].  What the DWR stub does with the
    call is not the proxy's business: its answer comes back later through
    one of the two slots of the completion handler. *)
Definition apply_dwrFunction (dwrFunction : value) (dwrArgs : list dwrArg) : M unit :=
  match dwrFunction with
  | VFun _ => emit (dwrFunction_apply dwrFunction dwrArgs)
  | _ => raise (TypeError "dwrFunction.apply is not a function")
  end.

Definition doRequest (h : Host.t) (this : DwrProxy.t) (action : string)
    (records params : value) (reader : Reader.t) (callback scope options : value)
    : M unit :=
  let request := Request.Build action records params reader callback scope options in
  match DwrProxy.apiActionToHandlerMap this !! action with
  | None =>
      lift (throw_new_Exception h ("No API Action Handler defined for action: " +:+ action))
  | Some apiActionHandler =>
      _ <- lift (get (ActionHandler.getDwrArgsFunction apiActionHandler) "call") ;;
      recordDataArray <- lift (getRecordDataArray records) ;;
      r <- lift (call_getDwrArgsFunction h
                   (ActionHandler.getDwrArgsFunction apiActionHandler)
                   (ActionHandler.getDwrArgsScope apiActionHandler)
                   request (VArr recordDataArray)) ;;
      dwrArgs <- lift (as_dwrArgs r) ;;
      apply_dwrFunction (ActionHandler.dwrFunction apiActionHandler)
        (map Plain dwrArgs ++ [Completion request])
  end.

(** ** Completion *)

Definition handleResponseException (request : Request.t) (response exception : value)
    : M unit :=
  _ <- emit (fireEvent_exception "response" (Request.action request)
               (Request.options request) response exception) ;;
  emit (callback_call (Request.callback request) (Request.scope request)
          VNull (Request.options request) (VBool false)).

Definition onRead (h : Host.t) (request : Request.t) (response : value) : M unit :=
  let reader := Request.reader request in
  try_catch (Reader.readRecords reader response)
    (fun e =>
       message <- lift (identifier h "message") ;;
       handleResponseException request message e)
    (fun readDataBlock =>
       success <- lift (get readDataBlock (Reader.successProperty (Reader.meta reader))) ;;
       _ <- (if is_false success then
               emit (fireEvent_exception "remote" (Request.action request)
                       (Request.options request) response VNull)
             else
               emit (fireEvent_load request (Request.options request))) ;;
       emit (callback_call (Request.callback request) (Request.scope request)
               readDataBlock (Request.options request) success)).

Definition onWrite (h : Host.t) (request : Request.t) (response : value) : M unit :=
  let reader := Request.reader request in
  try_catch (Reader.readResponse reader (Request.action request) response)
    (fun e =>
       message <- lift (identifier h "message") ;;
       handleResponseException request message e)
    (fun readDataBlock =>
       success <- lift (get readDataBlock (Reader.successProperty (Reader.meta reader))) ;;
       readRecords <- lift (get readDataBlock (Reader.root (Reader.meta reader))) ;;
       _ <- (if is_false success then
               emit (fireEvent_exception "remote" (Request.action request)
                       (Request.options request) response (Request.records request))
             else
               emit (fireEvent_write (Request.action request) readRecords readDataBlock
                       (Request.records request) (Request.options request))) ;;
       emit (callback_call (Request.callback request) (Request.scope request)
               readRecords response success)).

Module DwrCallback.
(** The object [createCallback] returns: DWR calls [callback] with the
    result, or [exceptionHandler] with a message and an exception. *)
Record t : Type := Build {
  callback : value → M unit;
  exceptionHandler : value → value → M unit
}.
End DwrCallback.

Definition createCallback (h : Host.t) (request : Request.t) : DwrCallback.t :=
  DwrCallback.Build
    (fun response =>
       if bool_decide (Request.action request = "read")
       then onRead h request response
       else onWrite h request response)
    (fun message exception => handleResponseException request message exception).

(** ** Running a dispatched call to completion *)

(** The reader call the success channel makes for a request. *)
Definition parse (request : Request.t) (response : value) : outcome value :=
  if bool_decide (Request.action request = "read")
  then Reader.readRecords (Request.reader request) response
  else Reader.readResponse (Request.reader request) (Request.action request) response.

(** What DWR does with the completion handler of a dispatched call: it
    calls one of the two slots. *)
Inductive completion : Type :=
| succeeded (response : value)
| failed (message exception : value).

Definition complete (h : Host.t) (request : Request.t) (c : completion) : M unit :=
  match c with
  | succeeded response => DwrCallback.callback (createCallback h request) response
  | failed message exception =>
      DwrCallback.exceptionHandler (createCallback h request) message exception
  end.

(** ** Vocabulary of the properties *)

Definition throws {A} (o : outcome A) : Prop := ∃ e, o = Throw e.

(** The errors the spec calls ConfigurationError and
    UnconfiguredActionError are both what [throw new Exception(...)]
    raises in the source. *)
Definition raised_by_throw_new_Exception {A} (h : Host.t) (o : outcome A) : Prop :=
  ∃ message, o = throw_new_Exception h message.

(** The config names none of the prototype's private members. *)
Definition no_private_override (config : value) : Prop :=
  this_defaultGetDwrArgsFunctions config = defaultGetDwrArgsFunctions.

(** ** Sample pages, configs and requests *)

(** A page that declares no globals of its own: neither [Exception] nor
    [message] is bound.  Its superclass constructor accepts any config. *)
Definition bare_page : Host.t :=
  Host.Build ∅ (λ _, "[object Object]") (λ _ _ _ _, Return VUndef) (λ _ _, Return tt).

(** The same page after loading a script that defines [Exception]. *)
Definition page_with_Exception : Host.t :=
  Host.Build {[ "Exception" := VFun (HostFn "Exception") ]}
    (λ _, "[object Object]") (λ _ _ _ _, Return VUndef) (λ _ _, Return tt).

(** [{ apiActionToHandlerMap : {} }] *)
Definition config_with_empty_map : value :=
  VObj {[ "apiActionToHandlerMap" := VObj ∅ ]}.

(** [{ apiActionToHandlerMap : { read : { dwrFunction : DwrInterface.read },
                                 create : { dwrFunction : DwrInterface.create } } }] *)
Definition config_read_create : value :=
  VObj {[ "apiActionToHandlerMap" :=
            VObj {[ "read" := VObj {[ "dwrFunction" := VFun (HostFn "DwrInterface.read") ]};
                    "create" := VObj {[ "dwrFunction" := VFun (HostFn "DwrInterface.create") ]} ]} ]}.

(** A reader in the manner of Ext.data.JsonReader with
    [root : 'objectsToConvertToRecords']: it wants an object and throws on
    anything else; the data block is the response object itself. *)
Definition sample_reader : Reader.t :=
  Reader.Build
    (λ response, match response with
                 | VObj _ => Return response
                 | _ => Throw (VNew "Error" [VStr "root is undefined"])
                 end)
    (λ _ response, match response with
                   | VObj _ => Return response
                   | _ => Throw (VNew "Error" [VStr "root is undefined"])
                   end)
    (Reader.Meta "success" "objectsToConvertToRecords").

Definition sample_request (action : string) (records : value) : Request.t :=
  Request.Build action records (VObj ∅) sample_reader
    (VFun (HostFn "store.loadRecords")) (VStr "store") (VStr "options").

(** [{ action : 'read', dwrFunction : DwrInterface.read }] *)
Definition handler_config_read : value :=
  VObj {[ "action" := VStr "read"; "dwrFunction" := VFun (HostFn "DwrInterface.read") ]}.

(** [{ action : 'delete', dwrFunction : DwrInterface.destroy }] *)
Definition handler_config_delete : value :=
  VObj {[ "action" := VStr "delete"; "dwrFunction" := VFun (HostFn "DwrInterface.destroy") ]}.

(** A record as the store holds it: its data plus framework bookkeeping. *)
Definition sample_record : value :=
  VObj {[ "data" := VObj {[ "id" := VNum 1 ]}; "id" := VNum 1001; "phantom" := VBool false ]}.

(** ** Reading traces *)

Definition is_exception_event (ev : event) : bool :=
  match ev with fireEvent_exception _ _ _ _ _ => true | _ => false end.



(** ** A page with argument builders of its own *)

(** The page of the class comment's sample: [destroyArgs] is
    [function(request, recordDataArray) { return [recordDataArray, this.login, this.password]; }],
    [noArgs] returns nothing, [brokenArgs] throws. *)
Definition page_with_builders : Host.t :=
  Host.Build {[ "Exception" := VFun (HostFn "Exception") ]}
    (λ _, "[object Object]")
    (λ name this request recordDataArray,
       if bool_decide (name = "destroyArgs") then
         Return (VArr [recordDataArray; own this "login"; own this "password"])
       else if bool_decide (name = "brokenArgs") then
         Throw (VNew "Error" [VStr "store is not ready"])
       else Return VUndef)
    (λ _ _, Return tt).

Definition login_scope : value :=
  VObj {[ "login" := VStr "user"; "password" := VStr "pass" ]}.

Definition config_custom_builders : value :=
  VObj {[ "apiActionToHandlerMap" :=
            VObj {[ "read" := VObj {[ "dwrFunction" := VFun (HostFn "DwrInterface.read");
                                      "getDwrArgsFunction" := VFun (HostFn "noArgs") ]};
                    "update" := VObj {[ "dwrFunction" := VFun (HostFn "DwrInterface.update");
                                        "getDwrArgsFunction" := VFun (HostFn "brokenArgs") ]};
                    "destroy" := VObj {[ "dwrFunction" := VFun (HostFn "DwrInterface.destroy");
                                         "getDwrArgsFunction" := VFun (HostFn "destroyArgs");
                                         "getDwrArgsScope" := login_scope ]} ]} ]}.

(** The proxy the constructor builds from [config_custom_builders]. *)
Definition proxy_custom_builders : DwrProxy.t :=
  DwrProxy.Build
    {[ "read" := ActionHandler.Build (VStr "read") (VFun (HostFn "DwrInterface.read"))
                   (VFun (HostFn "noArgs")) (VFun ObjectConstructor);
       "update" := ActionHandler.Build (VStr "update") (VFun (HostFn "DwrInterface.update"))
                     (VFun (HostFn "brokenArgs")) (VFun ObjectConstructor);
       "destroy" := ActionHandler.Build (VStr "destroy") (VFun (HostFn "DwrInterface.destroy"))
                      (VFun (HostFn "destroyArgs")) login_scope ]}.

(** The proxy the constructor builds from [config_read_create]. *)
Definition proxy_read_create : DwrProxy.t :=
  DwrProxy.Build
    {[ "read" := ActionHandler.Build (VStr "read") (VFun (HostFn "DwrInterface.read"))
                   (VFun defaultGetDwrArgsFunctions_read) (VFun ObjectConstructor);
       "create" := ActionHandler.Build (VStr "create") (VFun (HostFn "DwrInterface.create"))
                     (VFun defaultGetDwrArgsFunctions_write) (VFun ObjectConstructor) ]}.

(** [{ apiActionToHandlerMap : { read : { dwrFunction : DwrInterface.read },
                                 update : { getDwrArgsScope : this } } }]:
    the update entry names no DWR function. *)
Definition config_update_without_dwrFunction : value :=
  VObj {[ "apiActionToHandlerMap" :=
            VObj {[ "read" := VObj {[ "dwrFunction" := VFun (HostFn "DwrInterface.read") ]};
                    "update" := VObj {[ "getDwrArgsScope" := login_scope ]} ]} ]}.

(** A reader that hands the response back as the data block, whatever it
    is. *)
Definition passthrough_reader : Reader.t :=
  Reader.Build (λ response, Return response) (λ _ response, Return response)
    (Reader.Meta "success" "objectsToConvertToRecords").

(** * Properties *)

Lemma throw_new_Exception_throws {A} h message :
  throws (@throw_new_Exception A h message).
Proof.
  unfold throws, throw_new_Exception.
  destruct (Host.globals h !! "Exception") as [[]|]; eauto.
Qed.

Lemma obind_throw_new_Exception {A B} h message (k : A → outcome B) :
  obind (throw_new_Exception h message) k = throw_new_Exception h message.
Proof.
  unfold throw_new_Exception.
  by destruct (Host.globals h !! "Exception") as [[]|].
Qed.

Lemma Return_not_throws {A} (a : A) : ¬ throws (Return a).
Proof. intros [e He]. discriminate. Qed.

Lemma isAction_names v :
  Api.isAction v = true ↔ v ∈ [VStr "create"; VStr "read"; VStr "update"; VStr "destroy"].
Proof.
  split.
  - destruct v as [| | | |a| | | |]; simpl; try discriminate.
    intros Ha%bool_decide_eq_true_1.
    change Api.names with ["create"; "read"; "update"; "destroy"] in Ha.
    rewrite !elem_of_cons in Ha. rewrite !elem_of_cons.
    destruct Ha as [->|[->|[->|[->|Ha]]]]; auto.
    by apply elem_of_nil in Ha.
  - rewrite !elem_of_cons.
    intros [->|[->|[->|[->|Ha]]]]; try reflexivity.
    by apply elem_of_nil in Ha.
Qed.

Lemma isAction_truthy v : Api.isAction v = true → truthy v = true.
Proof.
  intros Hv%isAction_names. rewrite !elem_of_cons in Hv.
  destruct Hv as [->|[->|[->|[->|Hv]]]]; try reflexivity.
  by apply elem_of_nil in Hv.
Qed.

(** ** ActionHandler construction *)

Lemma defaults_read : get defaultGetDwrArgsFunctions "read" = Return (VFun defaultGetDwrArgsFunctions_read).
Proof. reflexivity. Qed.

Lemma defaults_write : get defaultGetDwrArgsFunctions "write" = Return (VFun defaultGetDwrArgsFunctions_write).
Proof. reflexivity. Qed.

(** What the constructor returns once its three checks pass. *)
Lemma ActionHandler_new_valid h config :
  no_private_override config →
  Api.isAction (own config "action") = true →
  truthy (own config "dwrFunction") = true →
  ActionHandler_new h config =
    Return (ActionHandler.Build (own config "action") (own config "dwrFunction")
              (if truthy (own config "getDwrArgsFunction")
               then own config "getDwrArgsFunction"
               else if is_string (own config "action") "read"
                    then VFun defaultGetDwrArgsFunctions_read
                    else VFun defaultGetDwrArgsFunctions_write)
              (if truthy (own config "getDwrArgsScope")
               then own config "getDwrArgsScope"
               else VFun ObjectConstructor)).
Proof.
  intros Hno Hact Hfn. unfold ActionHandler_new.
  rewrite (isAction_truthy _ Hact), Hact, Hfn, Hno. simpl.
  destruct (truthy (own config "getDwrArgsFunction")); simpl.
  - by destruct (truthy (own config "getDwrArgsScope")).
  - destruct (is_string (own config "action") "read");
      rewrite ?defaults_read, ?defaults_write; simpl;
      by destruct (truthy (own config "getDwrArgsScope")).
Qed.

Lemma ActionHandler_new_invalid h config :
  truthy (own config "action") = false
  ∨ Api.isAction (own config "action") = false
  ∨ truthy (own config "dwrFunction") = false →
  raised_by_throw_new_Exception h (ActionHandler_new h config).
Proof.
  unfold ActionHandler_new, raised_by_throw_new_Exception.
  destruct (truthy (own config "action")); simpl; [|eauto].
  destruct (Api.isAction (own config "action")); simpl; [|eauto].
  destruct (truthy (own config "dwrFunction")); simpl; [|eauto].
  intros [?|[?|?]]; discriminate.
Qed.

(** C7: constructing an ActionHandler raises (by [throw new Exception])
    exactly when the config is invalid, that is when the action is missing,
    is not one of create, read, update, destroy, or the DWR function is
    missing; a config that passes the three checks constructs a handler.
    "Missing" is what the source tests: the property is falsy. *)
Theorem ActionHandler_new_throws_iff_invalid (h : Host.t) (config : value) :
  no_private_override config →
  let invalid :=
    truthy (own config "action") = false
    ∨ own config "action" ∉ [VStr "create"; VStr "read"; VStr "update"; VStr "destroy"]
    ∨ truthy (own config "dwrFunction") = false in
  (invalid → throws (ActionHandler_new h config)
             ∧ raised_by_throw_new_Exception h (ActionHandler_new h config))
  ∧ (¬ invalid → ∃ handler, ActionHandler_new h config = Return handler)
  ∧ (throws (ActionHandler_new h config) ↔ invalid).
Proof.
  intros Hno invalid.
  assert (Hinv : invalid → raised_by_throw_new_Exception h (ActionHandler_new h config)).
  { intros Hi. apply ActionHandler_new_invalid.
    destruct Hi as [?|[Hi|?]]; auto.
    right; left. rewrite <- isAction_names in Hi. by destruct (Api.isAction _). }
  assert (Hthrows : invalid → throws (ActionHandler_new h config)).
  { intros [message ->]%Hinv. apply throw_new_Exception_throws. }
  assert (Hvalid : ¬ invalid → ∃ handler, ActionHandler_new h config = Return handler).
  { intros Hv. eexists. apply ActionHandler_new_valid; [done| |].
    - destruct (Api.isAction (own config "action")) eqn:Ha; [done|].
      exfalso. apply Hv. right; left. rewrite <- isAction_names, Ha. discriminate.
    - destruct (truthy (own config "dwrFunction")) eqn:Hf; [done|].
      exfalso. apply Hv. by right; right. }
  split; [auto|]. split; [done|]. split; [|done].
  intros Ht.
  destruct (decide (truthy (own config "action") = false)) as [|Ha]; [by left|].
  destruct (decide (truthy (own config "dwrFunction") = false)) as [|Hf]; [by right; right|].
  destruct (Api.isAction (own config "action")) eqn:Hact.
  - exfalso. apply not_false_is_true in Hf.
    rewrite (ActionHandler_new_valid h config Hno Hact Hf) in Ht.
    by apply Return_not_throws in Ht.
  - right; left. rewrite <- isAction_names, Hact. discriminate.
Qed.

(** ** DwrProxy construction *)

Lemma obind_Return {A B} (m : outcome A) (k : A → outcome B) b :
  obind m k = Return b → ∃ a, m = Return a ∧ k a = Return b.
Proof. destruct m; simpl; [eauto|discriminate]. Qed.

Lemma construct_handler_other h config handlers handlers' action a :
  construct_handler h config handlers action = Return handlers' →
  a ≠ action → handlers' !! a = handlers !! a.
Proof.
  unfold construct_handler.
  destruct (truthy _).
  - intros (handler & _ & [= <-])%obind_Return Hne. by rewrite lookup_insert_ne.
  - by intros [= <-].
Qed.

Lemma construct_handler_same h config handlers handlers' action :
  construct_handler h config handlers action = Return handlers' →
  let actionHandlerConfig := own (own config "apiActionToHandlerMap") action in
  if truthy actionHandlerConfig then
    ∃ handler,
      ActionHandler_new h (set_property actionHandlerConfig "action" (VStr action)) = Return handler
      ∧ handlers' !! action = Some handler
  else handlers' !! action = handlers !! action.
Proof.
  unfold construct_handler. simpl.
  destruct (truthy _).
  - intros (handler & Hnew & [= <-])%obind_Return.
    exists handler. by rewrite lookup_insert_eq.
  - by intros [= <-].
Qed.

Lemma iterate_actions_other h config actions : ∀ handlers handlers' a,
  iterate_actions h config actions handlers = Return handlers' →
  a ∉ actions → handlers' !! a = handlers !! a.
Proof.
  induction actions as [|action rest IH]; simpl; intros handlers handlers' a.
  - by intros [= <-].
  - intros (mid & Hmid & Hrest)%obind_Return Ha.
    apply not_elem_of_cons in Ha as [Hne Ha].
    rewrite (IH _ _ _ Hrest Ha).
    by apply (construct_handler_other _ _ _ _ _ _ Hmid).
Qed.

Lemma iterate_actions_configured h config actions : ∀ handlers handlers' a,
  NoDup actions →
  iterate_actions h config actions handlers = Return handlers' →
  a ∈ actions →
  truthy (own (own config "apiActionToHandlerMap") a) = true →
  ∃ handler,
    ActionHandler_new h
      (set_property (own (own config "apiActionToHandlerMap") a) "action" (VStr a))
      = Return handler
    ∧ handlers' !! a = Some handler.
Proof.
  induction actions as [|action rest IH]; simpl; intros handlers handlers' a Hnd.
  - intros _ Ha. by apply elem_of_nil in Ha.
  - apply NoDup_cons in Hnd as [Hfresh Hnd].
    intros (mid & Hmid & Hrest)%obind_Return Ha Htruthy.
    apply elem_of_cons in Ha as [->|Ha].
    + apply construct_handler_same in Hmid. simpl in Hmid. rewrite Htruthy in Hmid.
      destruct Hmid as (handler & Hnew & Hlook). exists handler. split; [done|].
      by rewrite (iterate_actions_other _ _ _ _ _ _ Hrest Hfresh).
    + by apply (IH mid).
Qed.

Lemma iterate_actions_unconfigured h config actions handlers :
  (∀ a, a ∈ actions → truthy (own (own config "apiActionToHandlerMap") a) = false) →
  iterate_actions h config actions handlers = Return handlers.
Proof.
  induction actions as [|action rest IH]; simpl; intros Hnone; [done|].
  unfold construct_handler. rewrite (Hnone action) by apply list_elem_of_here. simpl.
  apply IH. intros b Hb. by apply Hnone, list_elem_of_further.
Qed.

Lemma construct_handler_ext h config config' handlers action :
  own (own config' "apiActionToHandlerMap") action
    = own (own config "apiActionToHandlerMap") action →
  construct_handler h config' handlers action = construct_handler h config handlers action.
Proof. unfold construct_handler. by intros ->. Qed.

Lemma iterate_actions_ext h config config' actions : ∀ handlers,
  (∀ a, a ∈ actions →
     own (own config' "apiActionToHandlerMap") a = own (own config "apiActionToHandlerMap") a) →
  iterate_actions h config' actions handlers = iterate_actions h config actions handlers.
Proof.
  induction actions as [|action rest IH]; simpl; intros handlers Hsame; [done|].
  rewrite (construct_handler_ext h config config') by apply Hsame, list_elem_of_here.
  destruct (construct_handler h config handlers action); simpl; [|done].
  apply IH. intros b Hb. by apply Hsame, list_elem_of_further.
Qed.

Lemma names_eq : Api.names = ["create"; "read"; "update"; "destroy"].
Proof. reflexivity. Qed.

Lemma names_NoDup : NoDup Api.names.
Proof. apply (bool_decide_unpack _). by vm_compute. Qed.

Lemma construct_handlers_Return h config handlers :
  construct_handlers h config = Return handlers →
  truthy config = true
  ∧ truthy (own config "apiActionToHandlerMap") = true
  ∧ iterate_actions h config Api.names ∅ = Return handlers.
Proof.
  unfold construct_handlers.
  destruct (truthy config); simpl.
  - destruct (truthy (own config "apiActionToHandlerMap")); simpl; [done|].
    intros Hthrow. exfalso.
    destruct (throw_new_Exception_throws (A := gmap string ActionHandler.t) h
                apiActionToHandlerMap_missing) as [e He].
    congruence.
  - intros Hthrow. exfalso.
    destruct (throw_new_Exception_throws (A := gmap string ActionHandler.t) h
                apiActionToHandlerMap_missing) as [e He].
    congruence.
Qed.

Lemma DwrProxy_new_Return h config proxy :
  DwrProxy_new h config = Return proxy →
  construct_handlers h config = Return (DwrProxy.apiActionToHandlerMap proxy).
Proof.
  unfold DwrProxy_new.
  intros (handlers & Hh & (u & _ & [= <-])%obind_Return)%obind_Return. done.
Qed.

(** C9: whatever the config, the keys of the handler map a constructed
    proxy holds are among create, read, update, destroy; and an entry of
    the config's map under any other key changes nothing the constructor
    does itself: the same handlers are built or the same error is raised,
    and the entry only travels inside the config handed to the superclass
    constructor. *)
Theorem handler_map_keys_are_actions (h : Host.t) :
  (∀ config proxy a,
     DwrProxy_new h config = Return proxy →
     is_Some (DwrProxy.apiActionToHandlerMap proxy !! a) →
     a ∈ ["create"; "read"; "update"; "destroy"])
  ∧ (∀ c m k v,
       k ∉ ["create"; "read"; "update"; "destroy"] →
       c !! "apiActionToHandlerMap" = Some (VObj m) →
       let config := VObj c in
       let config' := VObj (<["apiActionToHandlerMap" := VObj (<[k := v]> m)]> c) in
       construct_handlers h config' = construct_handlers h config
       ∧ DwrProxy_new h config' =
           (handlers <-? construct_handlers h config ;;
            _ <-? Host.DataProxy_constructor h config' handlers ;;
            Return (DwrProxy.Build handlers))
       ∧ ∀ proxy, DwrProxy_new h config' = Return proxy →
                  DwrProxy.apiActionToHandlerMap proxy !! k = None).
Proof.
  assert (Hkeys : ∀ config proxy a,
     DwrProxy_new h config = Return proxy →
     is_Some (DwrProxy.apiActionToHandlerMap proxy !! a) →
     a ∈ ["create"; "read"; "update"; "destroy"]).
  { intros config proxy a Hnew%DwrProxy_new_Return Hsome.
    apply construct_handlers_Return in Hnew as (_ & _ & Hiter).
    rewrite <- names_eq.
    destruct (decide (a ∈ Api.names)) as [|Hout]; [done|].
    rewrite (iterate_actions_other _ _ _ _ _ _ Hiter Hout), lookup_empty in Hsome.
    by destruct Hsome. }
  split; [exact Hkeys|].
  intros c m k v Hk Hmap config config'.
  assert (Hsame : construct_handlers h config' = construct_handlers h config).
  { assert (Hown : own config "apiActionToHandlerMap" = VObj m).
    { unfold config. simpl. by rewrite Hmap. }
    assert (Hown' : own config' "apiActionToHandlerMap" = VObj (<[k := v]> m)).
    { unfold config'. simpl. by rewrite lookup_insert_eq. }
    unfold construct_handlers. rewrite Hown, Hown'.
    change (truthy config') with true. change (truthy config) with true.
    cbn [truthy negb orb].
    apply iterate_actions_ext. intros a Ha.
    rewrite Hown, Hown'. simpl.
    rewrite lookup_insert_ne; [done|].
    intros ->. apply Hk. by rewrite <- names_eq. }
  split; [exact Hsame|]. split.
  - unfold DwrProxy_new. by rewrite Hsame.
  - intros proxy Hnew.
    destruct (DwrProxy.apiActionToHandlerMap proxy !! k) eqn:Hlook; [|done].
    exfalso. apply Hk. apply (Hkeys config' proxy); [done|]. by rewrite Hlook.
Qed.

(** C3, as amended: the constructor raises (by [throw new Exception],
    before building anything and before the superclass constructor is
    called) when the config or its [apiActionToHandlerMap] is absent, so no
    proxy results.  A map that is present but empty passes the guard: the
    loop builds no handler and construction goes on to the superclass
    constructor with an empty handler map. *)
Theorem DwrProxy_new_requires_handler_map (h : Host.t) (config : value) :
  (truthy config = false ∨ truthy (own config "apiActionToHandlerMap") = false →
     DwrProxy_new h config = throw_new_Exception h apiActionToHandlerMap_missing
     ∧ throws (DwrProxy_new h config))
  ∧ (own config "apiActionToHandlerMap" = VObj ∅ →
     DwrProxy_new h config =
       (_ <-? Host.DataProxy_constructor h config ∅ ;; Return (DwrProxy.Build ∅))).
Proof.
  split.
  - intros Habsent.
    assert (Hguard : construct_handlers h config
                     = throw_new_Exception h apiActionToHandlerMap_missing).
    { unfold construct_handlers.
      destruct Habsent as [-> | ->]; simpl; [done|]. by rewrite orb_true_r. }
    assert (Hnew : DwrProxy_new h config = throw_new_Exception h apiActionToHandlerMap_missing).
    { unfold DwrProxy_new. rewrite Hguard. apply obind_throw_new_Exception. }
    split; [done|]. rewrite Hnew. apply throw_new_Exception_throws.
  - intros Hempty.
    assert (Hobj : truthy config = true).
    { destruct config; try discriminate. done. }
    unfold DwrProxy_new, construct_handlers.
    rewrite Hobj. rewrite Hempty at 1. cbn [truthy negb orb].
    rewrite iterate_actions_unconfigured; [done|].
    intros a _. rewrite Hempty. simpl. by rewrite lookup_empty.
Qed.

(** ** doRequest *)


Lemma own_set_property_ne o k k' x : k ≠ k' → own (set_property o k x) k' = own o k'.
Proof. intros Hne. destruct o; simpl; try done. by rewrite lookup_insert_ne. Qed.

Lemma own_set_property_eq props k x : own (set_property (VObj props) k x) k = x.
Proof. simpl. by rewrite lookup_insert_eq. Qed.

Lemma no_private_override_set_action o x :
  no_private_override o → no_private_override (set_property o "action" x).
Proof.
  unfold no_private_override. destruct o; simpl; try done.
  by rewrite lookup_insert_ne.
Qed.

Lemma omap_list_records (records : list value) :
  Forall (λ r, ∃ props, r = VObj props) records →
  omap_list (λ v, get v "data") records = Return (map (λ r, own r "data") records).
Proof.
  induction 1 as [|r rest [props ->] _ IH]; simpl; [done|].
  by rewrite IH.
Qed.

(** C8: a proxy built from a config whose entry for [action] names a DWR
    function and no argument builder dispatches, on [doRequest], exactly
    one call of that function; its arguments before the trailing completion
    handler are none for read and the single array of payloads otherwise.
    The payloads are what [getRecordDataArray] extracts: for an array of
    records, each record's [data] property, in order. *)
Theorem doRequest_default_arguments (h : Host.t) (config : value) (proxy : DwrProxy.t)
    (action : string) (f : fn) (records params : value) (payloads : list value)
    (reader : Reader.t) (callback scope options : value) :
  let entry := own (own config "apiActionToHandlerMap") action in
  DwrProxy_new h config = Return proxy →
  action ∈ ["create"; "read"; "update"; "destroy"] →
  own entry "dwrFunction" = VFun f →
  truthy (own entry "getDwrArgsFunction") = false →
  no_private_override entry →
  getRecordDataArray records = Return payloads →
  let request := Request.Build action records params reader callback scope options in
  doRequest h proxy action records params reader callback scope options =
    ([dwrFunction_apply (VFun f)
        ((if bool_decide (action = "read") then [] else [Plain (VArr payloads)])
         ++ [Completion request])],
     Return tt)
  ∧ (∀ rs, records = VArr rs → Forall (λ r, ∃ props, r = VObj props) rs →
           payloads = map (λ r, own r "data") rs).
Proof.
  intros entry Hnew Haction Hfn Hnone Hno Hpluck request.
  split.
  - assert (Hentry : ∃ props, entry = VObj props).
    { destruct entry; try discriminate. eauto. }
    destruct Hentry as [props Hprops].
    apply DwrProxy_new_Return, construct_handlers_Return in Hnew as (_ & _ & Hiter).
    rewrite <- names_eq in Haction.
    destruct (iterate_actions_configured _ _ _ _ _ action names_NoDup Hiter Haction)
      as (handler & Hhandler & Hlook).
    { fold entry. by rewrite Hprops. }
    fold entry in Hhandler.
    rewrite ActionHandler_new_valid in Hhandler.
    + injection Hhandler as <-.
      rewrite (own_set_property_ne entry "action" "dwrFunction") in Hlook by done.
      rewrite (own_set_property_ne entry "action" "getDwrArgsFunction") in Hlook by done.
      rewrite (own_set_property_ne entry "action" "getDwrArgsScope") in Hlook by done.
      rewrite Hfn, Hnone in Hlook.
      rewrite Hprops, own_set_property_eq, <- Hprops in Hlook.
      unfold doRequest. rewrite Hlook. cbn [ActionHandler.getDwrArgsFunction
        ActionHandler.dwrFunction ActionHandler.getDwrArgsScope is_string].
      rewrite Hpluck.
      by destruct (bool_decide (action = "read")).
    + by apply no_private_override_set_action.
    + rewrite Hprops, own_set_property_eq. simpl.
      apply bool_decide_eq_true_2. done.
    + rewrite own_set_property_ne by done. by rewrite Hfn.
  - intros rs -> Hrs. unfold getRecordDataArray, Ext_pluck in Hpluck.
    rewrite (omap_list_records _ Hrs) in Hpluck. by injection Hpluck as <-.
Qed.


(** ** Completion of a dispatched call *)

Lemma handleResponseException_trace request response exception :
  handleResponseException request response exception =
    ([fireEvent_exception "response" (Request.action request) (Request.options request)
        response exception;
      callback_call (Request.callback request) (Request.scope request)
        VNull (Request.options request) (VBool false)],
     Return tt).
Proof. reflexivity. Qed.

(** The success slot when the reader throws: the catch block evaluates the
    free identifier [message] before it can call the fault handler. *)
Lemma callback_parse_failure h request response e :
  parse request response = Throw e →
  DwrCallback.callback (createCallback h request) response =
    match Host.globals h !! "message" with
    | None => ([], Throw (ReferenceError "message"))
    | Some message => handleResponseException request message e
    end.
Proof.
  unfold parse. simpl.
  destruct (bool_decide (Request.action request = "read")); intros Hparse.
  - unfold onRead. rewrite Hparse. simpl. unfold identifier.
    by destruct (Host.globals h !! "message").
  - unfold onWrite. rewrite Hparse. simpl. unfold identifier.
    by destruct (Host.globals h !! "message").
Qed.

Lemma onRead_parsed h request response readDataBlock success :
  Reader.readRecords (Request.reader request) response = Return readDataBlock →
  get readDataBlock (Reader.successProperty (Reader.meta (Request.reader request)))
    = Return success →
  onRead h request response =
    ([match success with
      | VBool false =>
          fireEvent_exception "remote" (Request.action request) (Request.options request)
            response VNull
      | _ => fireEvent_load request (Request.options request)
      end;
      callback_call (Request.callback request) (Request.scope request)
        readDataBlock (Request.options request) success],
     Return tt).
Proof.
  intros Hparse Hflag. unfold onRead. rewrite Hparse. simpl. rewrite Hflag. simpl.
  by destruct success as [| |[]| | | | | |].
Qed.

Lemma onWrite_parsed h request response readDataBlock success readRecords :
  Reader.readResponse (Request.reader request) (Request.action request) response
    = Return readDataBlock →
  get readDataBlock (Reader.successProperty (Reader.meta (Request.reader request)))
    = Return success →
  get readDataBlock (Reader.root (Reader.meta (Request.reader request)))
    = Return readRecords →
  onWrite h request response =
    ([match success with
      | VBool false =>
          fireEvent_exception "remote" (Request.action request) (Request.options request)
            response (Request.records request)
      | _ =>
          fireEvent_write (Request.action request) readRecords readDataBlock
            (Request.records request) (Request.options request)
      end;
      callback_call (Request.callback request) (Request.scope request)
        readRecords response success],
     Return tt).
Proof.
  intros Hparse Hflag Hroot. unfold onWrite. rewrite Hparse. simpl.
  rewrite Hflag. simpl. rewrite Hroot. simpl.
  by destruct success as [| |[]| | | | | |].
Qed.

(** Where the source gets it right: the fault slot, and the success slot
    whenever the reader hands back a data block, invoke the callback once
    and return normally. *)
Lemma callback_invoked_once h request c :
  match c with
  | succeeded response =>
      ∃ readDataBlock, parse request response = Return readDataBlock
                       ∧ readDataBlock ≠ VUndef ∧ readDataBlock ≠ VNull
  | failed _ _ => True
  end →
  callback_invocations (trace (complete h request c)) = 1
  ∧ result (complete h request c) = Return tt.
Proof.
  destruct c as [response|message exception]; simpl; [|done].
  intros (readDataBlock & Hparse & Hundef & Hnull). unfold parse in Hparse.
  assert (Hget : ∀ k, get readDataBlock k = Return (own readDataBlock k)).
  { intros k. by destruct readDataBlock. }
  destruct (bool_decide (Request.action request = "read")).
  - rewrite (onRead_parsed _ _ _ _ _ Hparse (Hget _)).
    by destruct (own readDataBlock _) as [| |[]| | | | | |].
  - rewrite (onWrite_parsed _ _ _ _ _ _ Hparse (Hget _) (Hget _)).
    by destruct (own readDataBlock (Reader.successProperty _)) as [| |[]| | | | | |].
Qed.

(** C1: the callback is not invoked exactly once whenever the reader's
    parse fails.  On a page with no global [message] the success slot then
    ends in a ReferenceError raised inside the catch block: none of the
    three terminal paths runs and the callback is invoked zero times. *)
Theorem parse_failure_callback_never_invoked (h : Host.t) (request : Request.t)
    (response e : value) :
  parse request response = Throw e →
  Host.globals h !! "message" = None →
  callback_invocations (trace (complete h request (succeeded response))) = 0
  ∧ trace (complete h request (succeeded response)) = []
  ∧ result (complete h request (succeeded response)) = Throw (ReferenceError "message").
Proof.
  intros Hparse Hunbound. unfold complete.
  rewrite (callback_parse_failure h _ _ _ Hparse), Hunbound. done.
Qed.

(** C2: when the reader's parse function raises, the catch block of
    [onRead] and of [onWrite] does not pass the raw response on: it names
    [message], which nothing declares.  Unbound, that raises a
    ReferenceError with nothing emitted and the callback not invoked; bound
    to a global, the fault handler runs with that global, not the raw
    response, as the response field. *)
Theorem parse_failure_reads_global_message (h : Host.t) (request : Request.t)
    (response e : value) :
  parse request response = Throw e →
  DwrCallback.callback (createCallback h request) response =
    match Host.globals h !! "message" with
    | None => ([], Throw (ReferenceError "message"))
    | Some message =>
        ([fireEvent_exception "response" (Request.action request)
            (Request.options request) message e;
          callback_call (Request.callback request) (Request.scope request)
            VNull (Request.options request) (VBool false)],
         Return tt)
    end.
Proof.
  intros Hparse. rewrite (callback_parse_failure h _ _ _ Hparse).
  by destruct (Host.globals h !! "message").
Qed.





(** * The properties at sample inputs *)

Lemma ActionHandler_new_throws_iff_invalid_witness :
  (∃ handler, ActionHandler_new page_with_Exception handler_config_read = Return handler)
  ∧ throws (ActionHandler_new page_with_Exception handler_config_delete).
Proof.
  split.
  - destruct (ActionHandler_new_throws_iff_invalid page_with_Exception handler_config_read)
      as (_ & Hvalid & _); [by vm_compute|].
    apply Hvalid.
    assert (own handler_config_read "action" = VStr "read") as -> by (by vm_compute).
    assert (own handler_config_read "dwrFunction" = VFun (HostFn "DwrInterface.read")) as ->
      by (by vm_compute).
    intros [Ha|[Ha|Ha]]; [discriminate| |discriminate].
    apply Ha. rewrite !elem_of_cons. auto.
  - destruct (ActionHandler_new_throws_iff_invalid page_with_Exception handler_config_delete)
      as (Hinvalid & _ & _); [by vm_compute|].
    apply Hinvalid. right; left.
    assert (own handler_config_delete "action" = VStr "delete") as -> by (by vm_compute).
    rewrite !elem_of_cons.
    intros [Ha|[Ha|[Ha|[Ha|Ha%elem_of_nil]]]]; done.
Defined.

(** C3, as the spec states it, fails: a config whose handler map is
    present but empty constructs a proxy, with no handlers. *)
Lemma DwrProxy_new_empty_map_constructs :
  DwrProxy_new bare_page config_with_empty_map = Return (DwrProxy.Build ∅)
  ∧ ¬ throws (DwrProxy_new bare_page config_with_empty_map).
Proof.
  assert (Hnew : DwrProxy_new bare_page config_with_empty_map = Return (DwrProxy.Build ∅))
    by (by vm_compute).
  split; [done|]. rewrite Hnew. apply Return_not_throws.
Qed.

Lemma DwrProxy_new_requires_handler_map_witness :
  throws (DwrProxy_new bare_page (VObj ∅))
  ∧ DwrProxy_new bare_page config_with_empty_map =
      (_ <-? Host.DataProxy_constructor bare_page config_with_empty_map ∅ ;;
       Return (DwrProxy.Build ∅)).
Proof.
  split.
  - apply (DwrProxy_new_requires_handler_map bare_page (VObj ∅)).
    right. reflexivity.
  - apply (DwrProxy_new_requires_handler_map bare_page config_with_empty_map).
    by vm_compute.
Defined.

Lemma handler_map_keys_are_actions_witness :
  "read" ∈ ["create"; "read"; "update"; "destroy"]
  ∧ construct_handlers bare_page
      (VObj (<["apiActionToHandlerMap" :=
                 VObj (<["load" := handler_config_read]> ∅)]>
               {[ "apiActionToHandlerMap" := VObj ∅ ]}))
    = construct_handlers bare_page config_with_empty_map.
Proof.
  destruct (handler_map_keys_are_actions bare_page) as [Hkeys Hignored].
  split.
  - apply (Hkeys config_read_create
             (DwrProxy.Build
                {[ "read" := ActionHandler.Build (VStr "read")
                               (VFun (HostFn "DwrInterface.read"))
                               (VFun defaultGetDwrArgsFunctions_read)
                               (VFun ObjectConstructor);
                   "create" := ActionHandler.Build (VStr "create")
                                 (VFun (HostFn "DwrInterface.create"))
                                 (VFun defaultGetDwrArgsFunctions_write)
                                 (VFun ObjectConstructor) ]})).
    + by vm_compute.
    + simpl. eexists. by vm_compute.
  - apply (Hignored {[ "apiActionToHandlerMap" := VObj ∅ ]} ∅ "load" handler_config_read).
    + rewrite !elem_of_cons.
      intros [Ha|[Ha|[Ha|[Ha|Ha%elem_of_nil]]]]; done.
    + by vm_compute.
Defined.


Lemma doRequest_default_arguments_witness :
  doRequest bare_page
    (DwrProxy.Build
       {[ "read" := ActionHandler.Build (VStr "read") (VFun (HostFn "DwrInterface.read"))
                      (VFun defaultGetDwrArgsFunctions_read) (VFun ObjectConstructor);
          "create" := ActionHandler.Build (VStr "create") (VFun (HostFn "DwrInterface.create"))
                        (VFun defaultGetDwrArgsFunctions_write) (VFun ObjectConstructor) ]})
    "create" (VArr [sample_record]) (VObj ∅) sample_reader
    (VFun (HostFn "store.loadRecords")) (VStr "store") (VStr "options")
  = ([dwrFunction_apply (VFun (HostFn "DwrInterface.create"))
        [Plain (VArr [VObj {[ "id" := VNum 1 ]}]);
         Completion (sample_request "create" (VArr [sample_record]))]],
     Return tt).
Proof.
  apply (doRequest_default_arguments bare_page config_read_create _ "create"
           (HostFn "DwrInterface.create") (VArr [sample_record]) (VObj ∅)
           [VObj {[ "id" := VNum 1 ]}]).
  - by vm_compute.
  - rewrite !elem_of_cons. auto.
  - by vm_compute.
  - by vm_compute.
  - by vm_compute.
  - by vm_compute.
Defined.

Lemma parse_failure_callback_never_invoked_witness :
  callback_invocations
    (trace (complete bare_page (sample_request "read" VNull) (succeeded VNull))) = 0.
Proof.
  apply (parse_failure_callback_never_invoked bare_page (sample_request "read" VNull)
           VNull (VNew "Error" [VStr "root is undefined"])).
  - reflexivity.
  - reflexivity.
Defined.

Lemma parse_failure_reads_global_message_witness :
  DwrCallback.callback (createCallback bare_page (sample_request "update" (VArr [sample_record])))
    (VStr "<html>502 Bad Gateway</html>")
  = ([], Throw (ReferenceError "message")).
Proof.
  apply (parse_failure_reads_global_message bare_page
           (sample_request "update" (VArr [sample_record]))
           (VStr "<html>502 Bad Gateway</html>") (VNew "Error" [VStr "root is undefined"])).
  reflexivity.
Defined.





(** * Further properties *)

(** ** What a constructed proxy holds *)

Lemma ActionHandler_new_Return h config handler :
  ActionHandler_new h config = Return handler →
  ActionHandler.action handler = own config "action"
  ∧ Api.isAction (own config "action") = true
  ∧ ActionHandler.dwrFunction handler = own config "dwrFunction"
  ∧ truthy (own config "dwrFunction") = true
  ∧ (truthy (own config "getDwrArgsFunction") = true →
     ActionHandler.getDwrArgsFunction handler = own config "getDwrArgsFunction")
  ∧ ActionHandler.getDwrArgsScope handler =
      (if truthy (own config "getDwrArgsScope") then own config "getDwrArgsScope"
       else VFun ObjectConstructor).
Proof.
  unfold ActionHandler_new. intros Hnew.
  destruct (truthy (own config "action")) eqn:Ha; simpl in Hnew.
  2: { destruct (throw_new_Exception_throws (A := ActionHandler.t) h
         (dquote +:+ "action" +:+ dquote +:+ " is not defined.")) as [e He]. congruence. }
  destruct (Api.isAction (own config "action")) eqn:Hact; simpl in Hnew.
  2: { destruct (throw_new_Exception_throws (A := ActionHandler.t) h
         (ToString h (own config "action") +:+ " is not a valid Ext.data.Api action."))
         as [e He]. congruence. }
  destruct (truthy (own config "dwrFunction")) eqn:Hf; simpl in Hnew.
  2: { destruct (throw_new_Exception_throws (A := ActionHandler.t) h
         (dquote +:+ "dwrFunction" +:+ dquote +:+ " is not defined.")) as [e He]. congruence. }
  apply obind_Return in Hnew as (g & Hg & [= <-]). simpl.
  repeat split; try done.
  - intros Hcustom. rewrite Hcustom in Hg. simpl in Hg. congruence.
  - by destruct (truthy (own config "getDwrArgsScope")).
Qed.

Lemma iterate_actions_skipped h config actions : ∀ handlers handlers' a,
  iterate_actions h config actions handlers = Return handlers' →
  truthy (own (own config "apiActionToHandlerMap") a) = false →
  handlers' !! a = handlers !! a.
Proof.
  induction actions as [|action rest IH]; simpl; intros handlers handlers' a.
  - by intros [= <-].
  - intros (mid & Hmid & Hrest)%obind_Return Hfalsy.
    rewrite (IH _ _ _ Hrest Hfalsy).
    destruct (decide (a = action)) as [->|Hne].
    + apply construct_handler_same in Hmid. simpl in Hmid. by rewrite Hfalsy in Hmid.
    + by apply (construct_handler_other _ _ _ _ _ _ Hmid).
Qed.

(** Every handler in a constructed proxy was built from the config's entry
    for its key, with the key written over the entry's [action]. *)
Lemma DwrProxy_new_lookup h config proxy a handler :
  DwrProxy_new h config = Return proxy →
  DwrProxy.apiActionToHandlerMap proxy !! a = Some handler →
  a ∈ Api.names
  ∧ truthy (own (own config "apiActionToHandlerMap") a) = true
  ∧ ActionHandler_new h
      (set_property (own (own config "apiActionToHandlerMap") a) "action" (VStr a))
    = Return handler.
Proof.
  intros Hnew%DwrProxy_new_Return Hlook.
  apply construct_handlers_Return in Hnew as (_ & _ & Hiter).
  assert (Hin : a ∈ Api.names).
  { destruct (decide (a ∈ Api.names)) as [|Hout]; [done|].
    rewrite (iterate_actions_other _ _ _ _ _ _ Hiter Hout), lookup_empty in Hlook.
    discriminate. }
  assert (Htruthy : truthy (own (own config "apiActionToHandlerMap") a) = true).
  { destruct (truthy (own (own config "apiActionToHandlerMap") a)) eqn:Ht; [done|].
    rewrite (iterate_actions_skipped _ _ _ _ _ _ Hiter Ht), lookup_empty in Hlook.
    discriminate. }
  split; [done|]. split; [done|].
  destruct (iterate_actions_configured _ _ _ _ _ a names_NoDup Hiter Hin Htruthy)
    as (handler' & Hnew' & Hlook').
  congruence.
Qed.

(** X1: in a constructed proxy the handler stored under an action name
    carries that name as its action, whatever the config's entry said, and
    carries the entry's DWR function, builder and scope (the scope
    defaulting to Object); an entry that produced a handler is an object
    with a truthy dwrFunction. *)
Theorem constructed_handler_agrees_with_entry (h : Host.t) (config : value)
    (proxy : DwrProxy.t) (a : string) (handler : ActionHandler.t) :
  let entry := own (own config "apiActionToHandlerMap") a in
  DwrProxy_new h config = Return proxy →
  DwrProxy.apiActionToHandlerMap proxy !! a = Some handler →
  (∃ props, entry = VObj props)
  ∧ ActionHandler.action handler = VStr a
  ∧ ActionHandler.dwrFunction handler = own entry "dwrFunction"
  ∧ truthy (ActionHandler.dwrFunction handler) = true
  ∧ (truthy (own entry "getDwrArgsFunction") = true →
     ActionHandler.getDwrArgsFunction handler = own entry "getDwrArgsFunction")
  ∧ ActionHandler.getDwrArgsScope handler =
      (if truthy (own entry "getDwrArgsScope") then own entry "getDwrArgsScope"
       else VFun ObjectConstructor).
Proof.
  intros entry Hnew Hlook.
  destruct (DwrProxy_new_lookup _ _ _ _ _ Hnew Hlook) as (Hin & Htruthy & Hbuilt).
  fold entry in Htruthy, Hbuilt.
  apply ActionHandler_new_Return in Hbuilt
    as (Haction & Hisaction & Hfn & Hfntruthy & Hbuilder & Hscope).
  assert (Hobj : ∃ props, entry = VObj props).
  { destruct entry; eauto; simpl in Hisaction; discriminate. }
  destruct Hobj as [props Hprops].
  rewrite (own_set_property_ne entry "action" "dwrFunction") in Hfn, Hfntruthy by done.
  rewrite (own_set_property_ne entry "action" "getDwrArgsFunction") in Hbuilder by done.
  rewrite (own_set_property_ne entry "action" "getDwrArgsScope") in Hscope by done.
  rewrite Hprops, own_set_property_eq in Haction.
  split; [eauto|]. split; [done|]. split; [done|].
  split; [by rewrite Hfn|]. split; done.
Qed.

(** X2: a constructed proxy has a handler under a name exactly when the
    name is one of create, read, update, destroy and the config's map has
    a truthy entry under it. *)
Theorem handler_registered_iff_configured (h : Host.t) (config : value)
    (proxy : DwrProxy.t) (a : string) :
  DwrProxy_new h config = Return proxy →
  (is_Some (DwrProxy.apiActionToHandlerMap proxy !! a)
   ↔ a ∈ ["create"; "read"; "update"; "destroy"]
     ∧ truthy (own (own config "apiActionToHandlerMap") a) = true).
Proof.
  intros Hnew. rewrite <- names_eq. split.
  - intros [handler Hlook].
    destruct (DwrProxy_new_lookup _ _ _ _ _ Hnew Hlook) as (Hin & Htruthy & _). done.
  - intros [Hin Htruthy].
    apply DwrProxy_new_Return, construct_handlers_Return in Hnew as (_ & _ & Hiter).
    destruct (iterate_actions_configured _ _ _ _ _ a names_NoDup Hiter Hin Htruthy)
      as (handler & _ & Hlook).
    by rewrite Hlook.
Qed.

Lemma obind_throws {A B} (m : outcome A) (k : A → outcome B) :
  throws m → throws (obind m k).
Proof. intros [e ->]. by exists e. Qed.

Lemma iterate_actions_throws h config actions : ∀ handlers a,
  a ∈ actions →
  truthy (own (own config "apiActionToHandlerMap") a) = true →
  throws (ActionHandler_new h
            (set_property (own (own config "apiActionToHandlerMap") a) "action" (VStr a))) →
  throws (iterate_actions h config actions handlers).
Proof.
  induction actions as [|action rest IH]; simpl; intros handlers a Ha Htruthy Hbad.
  - by apply elem_of_nil in Ha.
  - destruct (construct_handler h config handlers action) as [mid|e] eqn:Hmid; simpl.
    + apply elem_of_cons in Ha as [->|Ha]; [|by apply (IH mid a)].
      exfalso. unfold construct_handler in Hmid. rewrite Htruthy in Hmid.
      destruct Hbad as [e He]. rewrite He in Hmid. discriminate.
    + by exists e.
Qed.

(** X3: one entry without a DWR function fails the whole construction.
    If the config's map has, under one of the four action names, an object
    with no truthy dwrFunction, the constructor throws before the
    superclass constructor is reached, whatever the other entries are. *)
Theorem entry_without_dwrFunction_aborts (h : Host.t) (config : value) (a : string)
    (props : gmap string value) :
  a ∈ ["create"; "read"; "update"; "destroy"] →
  own (own config "apiActionToHandlerMap") a = VObj props →
  truthy (own (VObj props) "dwrFunction") = false →
  ∃ e, construct_handlers h config = Throw e ∧ DwrProxy_new h config = Throw e.
Proof.
  intros Hin Hentry Hmissing. rewrite <- names_eq in Hin.
  assert (Hthrows : throws (construct_handlers h config)).
  { unfold construct_handlers.
    destruct (negb (truthy config) || negb (truthy (own config "apiActionToHandlerMap"))).
    - apply throw_new_Exception_throws.
    - apply (iterate_actions_throws _ _ _ _ a Hin).
      + by rewrite Hentry.
      + rewrite Hentry.
        destruct (ActionHandler_new_invalid h (set_property (VObj props) "action" (VStr a)))
          as [message ->]; [|apply throw_new_Exception_throws].
        right; right. by rewrite own_set_property_ne. }
  destruct Hthrows as [e He]. exists e. split; [done|].
  unfold DwrProxy_new. by rewrite He.
Qed.

(** ** Configuration errors as the page sees them *)


(** X5: on a page whose global [Exception] is a function, the handler
    constructor reports its checks in source order.  A falsy action gives
    the 'action is not defined' message whatever else is wrong; a string
    that is not an action name gives the message that starts with that
    string, even with no DWR function; only a valid action with a falsy
    dwrFunction gives the 'dwrFunction is not defined' message. *)
Theorem ActionHandler_new_reports_first_failed_check (h : Host.t) (ctor : fn)
    (config : value) :
  Host.globals h !! "Exception" = Some (VFun ctor) →
  (truthy (own config "action") = false →
     ActionHandler_new h config =
       Throw (VNew "Exception" [VStr (dquote +:+ "action" +:+ dquote +:+ " is not defined.")]))
  ∧ (∀ s, own config "action" = VStr s → s ≠ EmptyString →
          s ∉ ["create"; "read"; "update"; "destroy"] →
          ActionHandler_new h config =
            Throw (VNew "Exception" [VStr (s +:+ " is not a valid Ext.data.Api action.")]))
  ∧ (own config "action" ∈ [VStr "create"; VStr "read"; VStr "update"; VStr "destroy"] →
     truthy (own config "dwrFunction") = false →
     ActionHandler_new h config =
       Throw (VNew "Exception"
                [VStr (dquote +:+ "dwrFunction" +:+ dquote +:+ " is not defined.")])).
Proof.
  intros Hbound.
  assert (Hthrow : ∀ A message,
            @throw_new_Exception A h message = Throw (VNew "Exception" [VStr message])).
  { intros A message. unfold throw_new_Exception. by rewrite Hbound. }
  unfold ActionHandler_new. split; [|split].
  - intros ->. simpl. apply Hthrow.
  - intros s Hs Hnonempty Hnot. rewrite Hs.
    assert (truthy (VStr s) = true) as -> by (by destruct s).
    assert (Api.isAction (VStr s) = false) as ->.
    { simpl. apply bool_decide_eq_false_2. by rewrite names_eq. }
    simpl. apply Hthrow.
  - intros Haction%isAction_names Hmissing.
    rewrite (isAction_truthy _ Haction), Haction, Hmissing. simpl. apply Hthrow.
Qed.

(** ** Dispatch with a builder of the page's own *)

Lemma DwrProxy_new_configured h config proxy a :
  DwrProxy_new h config = Return proxy →
  a ∈ Api.names →
  truthy (own (own config "apiActionToHandlerMap") a) = true →
  ∃ handler,
    DwrProxy.apiActionToHandlerMap proxy !! a = Some handler
    ∧ ActionHandler_new h
        (set_property (own (own config "apiActionToHandlerMap") a) "action" (VStr a))
      = Return handler.
Proof.
  intros Hnew%DwrProxy_new_Return Hin Htruthy.
  apply construct_handlers_Return in Hnew as (_ & _ & Hiter).
  destruct (iterate_actions_configured _ _ _ _ _ a names_NoDup Hiter Hin Htruthy)
    as (handler & Hbuilt & Hlook).
  eauto.
Qed.

(** [doRequest] on an action whose entry names a DWR function and a
    builder of the page's own, reduced to what the builder answers. *)
Lemma doRequest_custom_builder h config proxy action f name records params payloads
    reader callback scope options :
  let entry := own (own config "apiActionToHandlerMap") action in
  let getDwrArgsScope :=
    if truthy (own entry "getDwrArgsScope") then own entry "getDwrArgsScope"
    else VFun ObjectConstructor in
  let request := Request.Build action records params reader callback scope options in
  DwrProxy_new h config = Return proxy →
  action ∈ ["create"; "read"; "update"; "destroy"] →
  own entry "dwrFunction" = VFun f →
  own entry "getDwrArgsFunction" = VFun (HostFn name) →
  getRecordDataArray records = Return payloads →
  doRequest h proxy action records params reader callback scope options =
    match Host.call h name getDwrArgsScope request (VArr payloads) with
    | Throw e => ([], Throw e)
    | Return r =>
        match as_dwrArgs r with
        | Throw e => ([], Throw e)
        | Return dwrArgs =>
            ([dwrFunction_apply (VFun f) (map Plain dwrArgs ++ [Completion request])],
             Return tt)
        end
    end.
Proof.
  intros entry getDwrArgsScope request Hnew Hin Hfn Hbuilder Hpluck.
  rewrite <- names_eq in Hin.
  assert (Htruthy : truthy entry = true).
  { destruct entry; try discriminate. done. }
  destruct (DwrProxy_new_configured _ _ _ _ Hnew Hin Htruthy) as (handler & Hlook & Hbuilt).
  fold entry in Hbuilt.
  apply ActionHandler_new_Return in Hbuilt as (_ & _ & Hf & _ & Hb & Hs).
  rewrite (own_set_property_ne entry "action" "dwrFunction"), Hfn in Hf by done.
  rewrite (own_set_property_ne entry "action" "getDwrArgsFunction"), Hbuilder in Hb by done.
  rewrite (own_set_property_ne entry "action" "getDwrArgsScope") in Hs by done.
  specialize (Hb eq_refl).
  unfold doRequest. rewrite Hlook, Hb, Hf, Hs, Hpluck. simpl.
  fold getDwrArgsScope request.
  destruct (Host.call h name getDwrArgsScope request (VArr payloads)) as [r|e]; simpl; [|done].
  by destruct (as_dwrArgs r).
Qed.

(** X6: when the config's entry for an action names a builder of the
    page's own, [doRequest] calls that builder under the entry's
    getDwrArgsScope (Object if the entry gives none) with the request and
    the array of payloads, and dispatches exactly the elements of the array
    it returns, in order, followed by the completion handler. *)
Theorem doRequest_dispatches_builder_result (h : Host.t) (config : value)
    (proxy : DwrProxy.t) (action : string) (f : fn) (name : string)
    (records params : value) (payloads dwrArgs : list value)
    (reader : Reader.t) (callback scope options : value) :
  let entry := own (own config "apiActionToHandlerMap") action in
  let getDwrArgsScope :=
    if truthy (own entry "getDwrArgsScope") then own entry "getDwrArgsScope"
    else VFun ObjectConstructor in
  let request := Request.Build action records params reader callback scope options in
  DwrProxy_new h config = Return proxy →
  action ∈ ["create"; "read"; "update"; "destroy"] →
  own entry "dwrFunction" = VFun f →
  own entry "getDwrArgsFunction" = VFun (HostFn name) →
  getRecordDataArray records = Return payloads →
  Host.call h name getDwrArgsScope request (VArr payloads) = Return (VArr dwrArgs) →
  doRequest h proxy action records params reader callback scope options =
    ([dwrFunction_apply (VFun f) (map Plain dwrArgs ++ [Completion request])], Return tt).
Proof.
  intros entry getDwrArgsScope request Hnew Hin Hfn Hbuilder Hpluck Hcall.
  rewrite (doRequest_custom_builder _ _ _ _ _ _ _ _ _ _ _ _ _ Hnew Hin Hfn Hbuilder Hpluck).
  fold entry getDwrArgsScope request. by rewrite Hcall.
Qed.

(** X7: a builder that returns nothing (undefined, null or another falsy
    value) stands for no arguments: the DWR function is applied to the
    completion handler alone. *)
Theorem doRequest_falsy_builder_result (h : Host.t) (config : value)
    (proxy : DwrProxy.t) (action : string) (f : fn) (name : string)
    (records params r : value) (payloads : list value)
    (reader : Reader.t) (callback scope options : value) :
  let entry := own (own config "apiActionToHandlerMap") action in
  let getDwrArgsScope :=
    if truthy (own entry "getDwrArgsScope") then own entry "getDwrArgsScope"
    else VFun ObjectConstructor in
  let request := Request.Build action records params reader callback scope options in
  DwrProxy_new h config = Return proxy →
  action ∈ ["create"; "read"; "update"; "destroy"] →
  own entry "dwrFunction" = VFun f →
  own entry "getDwrArgsFunction" = VFun (HostFn name) →
  getRecordDataArray records = Return payloads →
  Host.call h name getDwrArgsScope request (VArr payloads) = Return r →
  truthy r = false →
  doRequest h proxy action records params reader callback scope options =
    ([dwrFunction_apply (VFun f) [Completion request]], Return tt).
Proof.
  intros entry getDwrArgsScope request Hnew Hin Hfn Hbuilder Hpluck Hcall Hfalsy.
  rewrite (doRequest_custom_builder _ _ _ _ _ _ _ _ _ _ _ _ _ Hnew Hin Hfn Hbuilder Hpluck).
  fold entry getDwrArgsScope request. rewrite Hcall.
  unfold as_dwrArgs. by rewrite Hfalsy.
Qed.

(** X8: an error thrown by the page's builder leaves [doRequest] as it
    was thrown: the DWR function is not applied and the callback is not
    invoked. *)
Theorem doRequest_builder_error_propagates (h : Host.t) (config : value)
    (proxy : DwrProxy.t) (action : string) (f : fn) (name : string)
    (records params e : value) (payloads : list value)
    (reader : Reader.t) (callback scope options : value) :
  let entry := own (own config "apiActionToHandlerMap") action in
  let getDwrArgsScope :=
    if truthy (own entry "getDwrArgsScope") then own entry "getDwrArgsScope"
    else VFun ObjectConstructor in
  let request := Request.Build action records params reader callback scope options in
  DwrProxy_new h config = Return proxy →
  action ∈ ["create"; "read"; "update"; "destroy"] →
  own entry "dwrFunction" = VFun f →
  own entry "getDwrArgsFunction" = VFun (HostFn name) →
  getRecordDataArray records = Return payloads →
  Host.call h name getDwrArgsScope request (VArr payloads) = Throw e →
  doRequest h proxy action records params reader callback scope options = ([], Throw e).
Proof.
  intros entry getDwrArgsScope request Hnew Hin Hfn Hbuilder Hpluck Hcall.
  rewrite (doRequest_custom_builder _ _ _ _ _ _ _ _ _ _ _ _ _ Hnew Hin Hfn Hbuilder Hpluck).
  fold entry getDwrArgsScope request. by rewrite Hcall.
Qed.

(** ** What doRequest never does *)

Lemma lift_bind {A B} (o : outcome A) (k : A → M B) :
  bind (lift o) k = match o with Return a => k a | Throw e => ([], Throw e) end.
Proof. destruct o as [a|e]; simpl; [|done]. by destruct (k a). Qed.

(** X9: whatever the proxy, the action and the page's builder do,
    [doRequest] either throws having done nothing, or returns after
    exactly one effect: the DWR function of the handler registered for
    that very action, applied to plain arguments followed by the completion
    handler of a request made of the seven arguments it was given.  It
    never applies another action's function, never applies one twice and
    never invokes the callback itself. *)
Theorem doRequest_dispatches_once_or_not_at_all (h : Host.t) (this : DwrProxy.t)
    (action : string) (records params : value) (reader : Reader.t)
    (callback scope options : value) :
  let run := doRequest h this action records params reader callback scope options in
  let request := Request.Build action records params reader callback scope options in
  (throws (result run) ∧ trace run = [])
  ∨ (result run = Return tt
     ∧ ∃ handler dwrArgs,
         DwrProxy.apiActionToHandlerMap this !! action = Some handler
         ∧ trace run =
             [dwrFunction_apply (ActionHandler.dwrFunction handler)
                (map Plain dwrArgs ++ [Completion request])]).
Proof.
  intros run request. unfold run, doRequest.
  destruct (DwrProxy.apiActionToHandlerMap this !! action) as [handler|].
  2: { left. split; [apply throw_new_Exception_throws|done]. }
  rewrite !lift_bind.
  destruct (get (ActionHandler.getDwrArgsFunction handler) "call") as [?|e];
    [|left; split; [by exists e|done]].
  destruct (getRecordDataArray records) as [payloads|e];
    [|left; split; [by exists e|done]].
  rewrite lift_bind.
  destruct (call_getDwrArgsFunction h _ _ _ _) as [r|e];
    [|left; split; [by exists e|done]].
  rewrite lift_bind.
  destruct (as_dwrArgs r) as [dwrArgs|e];
    [|left; split; [by exists e|done]].
  unfold apply_dwrFunction.
  destruct (ActionHandler.dwrFunction handler) eqn:Hfn;
    try (left; split; [by eexists|done]).
  right. split; [done|]. exists handler, dwrArgs. by rewrite Hfn.
Qed.


(** ** What a completion never does *)

(** Every way a slot of the completion handler can end. *)
Lemma complete_cases h request c :
  (∃ notification a1 a2 a3,
     complete h request c =
       ([notification;
         callback_call (Request.callback request) (Request.scope request) a1 a2 a3],
        Return tt)
     ∧ is_callback_call notification = false
     ∧ (is_exception_event notification = true ↔ a3 = VBool false))
  ∨ (∃ e, complete h request c = ([], Throw e)).
Proof.
  destruct c as [response|message exception]; simpl.
  2: { left. eexists _, _, _, _. rewrite handleResponseException_trace. done. }
  assert (Hfault : ∀ e,
    (∃ notification a1 a2 a3,
       bind (lift (identifier h "message")) (λ m, handleResponseException request m e) =
         ([notification;
           callback_call (Request.callback request) (Request.scope request) a1 a2 a3],
          Return tt)
       ∧ is_callback_call notification = false
       ∧ (is_exception_event notification = true ↔ a3 = VBool false))
    ∨ (∃ e', bind (lift (identifier h "message"))
               (λ m, handleResponseException request m e) = ([], Throw e'))).
  { intros e. rewrite lift_bind. unfold identifier.
    destruct (Host.globals h !! "message") as [m|].
    - left. eexists _, _, _, _. rewrite handleResponseException_trace. done.
    - right. by eexists. }
  destruct (bool_decide (Request.action request = "read")).
  - destruct (Reader.readRecords (Request.reader request) response) as [block|e] eqn:Hparse.
    2: { unfold onRead. rewrite Hparse. apply Hfault. }
    destruct (get block (Reader.successProperty (Reader.meta (Request.reader request))))
      as [success|e] eqn:Hflag.
    + left. rewrite (onRead_parsed _ _ _ _ _ Hparse Hflag).
      eexists _, _, _, success. split; [done|].
      by destruct success as [| |[]| | | | | |].
    + right. exists e. unfold onRead. rewrite Hparse. simpl. by rewrite Hflag.
  - destruct (Reader.readResponse (Request.reader request) (Request.action request) response)
      as [block|e] eqn:Hparse.
    2: { unfold onWrite. rewrite Hparse. apply Hfault. }
    destruct (get block (Reader.successProperty (Reader.meta (Request.reader request))))
      as [success|e] eqn:Hflag.
    2: { right. exists e. unfold onWrite. rewrite Hparse. simpl. by rewrite Hflag. }
    destruct (get block (Reader.root (Reader.meta (Request.reader request))))
      as [readRecords|e] eqn:Hroot.
    2: { destruct block; discriminate. }
    left. rewrite (onWrite_parsed _ _ _ _ _ _ Hparse Hflag Hroot).
    eexists _, _, _, success. split; [done|].
    by destruct success as [| |[]| | | | | |].
Qed.


(** X11: the success argument the callback receives is the boolean false
    exactly when the notification before it was an exception event, on
    either slot and for every action: a load or write event is never
    followed by a callback told false, and an exception event never by a
    callback told anything else. *)
Theorem exception_event_iff_callback_told_false (h : Host.t) (request : Request.t)
    (c : completion) (ev : event) (cb sc x1 x2 x3 : value) :
  trace (complete h request c) = [ev; callback_call cb sc x1 x2 x3] →
  (is_exception_event ev = true ↔ x3 = VBool false).
Proof.
  destruct (complete_cases h request c)
    as [(n & b1 & b2 & b3 & -> & _ & Hiff) | (e & ->)]; simpl.
  - by intros [= <- _ _ _ _ <-].
  - discriminate.
Qed.

(** X12: when the reader returns undefined or null instead of throwing,
    the success slot throws while reading the success property, outside
    the try block: nothing is notified and the callback is never invoked,
    whether or not the page binds [message]. *)
Theorem missing_data_block_escapes (h : Host.t) (request : Request.t)
    (response block : value) :
  parse request response = Return block →
  block = VUndef ∨ block = VNull →
  ∃ e, complete h request (succeeded response) = ([], Throw e).
Proof.
  unfold parse. simpl. intros Hparse Hblock.
  destruct (bool_decide (Request.action request = "read")).
  - unfold onRead. rewrite Hparse. simpl.
    destruct Hblock as [-> | ->]; by eexists.
  - unfold onWrite. rewrite Hparse. simpl.
    destruct Hblock as [-> | ->]; by eexists.
Qed.




(** * The further properties at sample inputs *)

Lemma constructed_handler_agrees_with_entry_witness :
  ActionHandler.action
    (ActionHandler.Build (VStr "destroy") (VFun (HostFn "DwrInterface.destroy"))
       (VFun (HostFn "destroyArgs")) login_scope)
  = VStr "destroy".
Proof.
  apply (constructed_handler_agrees_with_entry page_with_builders config_custom_builders
           proxy_custom_builders "destroy").
  - by vm_compute.
  - by vm_compute.
Defined.

Lemma handler_registered_iff_configured_witness :
  is_Some (DwrProxy.apiActionToHandlerMap proxy_read_create !! "create").
Proof.
  apply (handler_registered_iff_configured bare_page config_read_create proxy_read_create).
  - by vm_compute.
  - split; [|by vm_compute]. rewrite !elem_of_cons. auto.
Defined.

Lemma entry_without_dwrFunction_aborts_witness :
  ∃ e, construct_handlers page_with_builders config_update_without_dwrFunction = Throw e
       ∧ DwrProxy_new page_with_builders config_update_without_dwrFunction = Throw e.
Proof.
  apply (entry_without_dwrFunction_aborts page_with_builders
           config_update_without_dwrFunction "update" {[ "getDwrArgsScope" := login_scope ]}).
  - rewrite !elem_of_cons. auto.
  - by vm_compute.
  - by vm_compute.
Defined.


Lemma ActionHandler_new_reports_first_failed_check_witness :
  ActionHandler_new page_with_Exception handler_config_delete =
    Throw (VNew "Exception" [VStr "delete is not a valid Ext.data.Api action."]).
Proof.
  destruct (ActionHandler_new_reports_first_failed_check page_with_Exception
              (HostFn "Exception") handler_config_delete) as (_ & Hinvalid & _).
  - by vm_compute.
  - apply (Hinvalid "delete").
    + by vm_compute.
    + discriminate.
    + rewrite !elem_of_cons.
      intros [Ha|[Ha|[Ha|[Ha|Ha%elem_of_nil]]]]; done.
Defined.

Lemma doRequest_dispatches_builder_result_witness :
  doRequest page_with_builders proxy_custom_builders "destroy" (VArr [sample_record]) (VObj ∅)
    sample_reader (VFun (HostFn "store.loadRecords")) (VStr "store") (VStr "options")
  = ([dwrFunction_apply (VFun (HostFn "DwrInterface.destroy"))
        (map Plain [VArr [VObj {[ "id" := VNum 1 ]}]; VStr "user"; VStr "pass"]
         ++ [Completion (sample_request "destroy" (VArr [sample_record]))])],
     Return tt).
Proof.
  apply (doRequest_dispatches_builder_result page_with_builders config_custom_builders
           proxy_custom_builders "destroy" (HostFn "DwrInterface.destroy") "destroyArgs"
           (VArr [sample_record]) (VObj ∅) [VObj {[ "id" := VNum 1 ]}]).
  - by vm_compute.
  - rewrite !elem_of_cons. auto.
  - by vm_compute.
  - by vm_compute.
  - by vm_compute.
  - by vm_compute.
Defined.

Lemma doRequest_falsy_builder_result_witness :
  doRequest page_with_builders proxy_custom_builders "read" VNull (VObj ∅)
    sample_reader (VFun (HostFn "store.loadRecords")) (VStr "store") (VStr "options")
  = ([dwrFunction_apply (VFun (HostFn "DwrInterface.read"))
        [Completion (sample_request "read" VNull)]],
     Return tt).
Proof.
  apply (doRequest_falsy_builder_result page_with_builders config_custom_builders
           proxy_custom_builders "read" (HostFn "DwrInterface.read") "noArgs"
           VNull (VObj ∅) VUndef []).
  - by vm_compute.
  - rewrite !elem_of_cons. auto.
  - by vm_compute.
  - by vm_compute.
  - by vm_compute.
  - by vm_compute.
  - reflexivity.
Defined.

Lemma doRequest_builder_error_propagates_witness :
  doRequest page_with_builders proxy_custom_builders "update" (VArr [sample_record]) (VObj ∅)
    sample_reader (VFun (HostFn "store.loadRecords")) (VStr "store") (VStr "options")
  = ([], Throw (VNew "Error" [VStr "store is not ready"])).
Proof.
  apply (doRequest_builder_error_propagates page_with_builders config_custom_builders
           proxy_custom_builders "update" (HostFn "DwrInterface.update") "brokenArgs"
           (VArr [sample_record]) (VObj ∅) (VNew "Error" [VStr "store is not ready"])
           [VObj {[ "id" := VNum 1 ]}]).
  - by vm_compute.
  - rewrite !elem_of_cons. auto.
  - by vm_compute.
  - by vm_compute.
  - by vm_compute.
  - by vm_compute.
Defined.

Lemma exception_event_iff_callback_told_false_witness :
  is_exception_event
    (fireEvent_exception "remote" "read" (VStr "options")
       (VObj {[ "success" := VBool false ]}) VNull) = true
  ↔ VBool false = VBool false.
Proof.
  apply (exception_event_iff_callback_told_false bare_page (sample_request "read" VNull)
           (succeeded (VObj {[ "success" := VBool false ]}))
           _ (VFun (HostFn "store.loadRecords")) (VStr "store")
           (VObj {[ "success" := VBool false ]}) (VStr "options")).
  by vm_compute.
Defined.

Lemma missing_data_block_escapes_witness :
  ∃ e, complete bare_page
         (Request.Build "read" VNull (VObj ∅) passthrough_reader
            (VFun (HostFn "store.loadRecords")) (VStr "store") (VStr "options"))
         (succeeded VNull)
       = ([], Throw e).
Proof.
  apply (missing_data_block_escapes bare_page _ VNull VNull).
  - reflexivity.
  - by right.
Defined.

